(** * Domicare front end: response contracts and the authentication client

    A shallow embedding of
      - [models/interface/response.interface.ts]
      - [models/interface/auth.interface.ts]
      - [core/services/auth.service.ts]

    TypeScript types are erased when the program runs, so the values that
    travel through the client are plain JavaScript values ([JsValue]).  The
    interface declarations are kept as data ([TsType]) together with the
    structural rule that says when a value is an instance of a declaration
    ([conforms]).  The six operations of [authApi] are Rocq functions into
    a small program type ([Axios]) whose only effect is a call to the HTTP
    transport; [run] executes such a program against an arbitrary
    transport and records every exchange. *)

From Stdlib Require Import String List Bool.
From Stdlib Require Import SpecFloat PArith ZArith.
Import ListNotations.
Local Open Scope string_scope.
Local Open Scope list_scope.

Set Implicit Arguments.
Set Warnings "-register-all".

(** ** JavaScript values *)

(** A JavaScript number is an IEEE 754 binary64: a signed zero, an
    infinity, NaN, or a sign, a mantissa and an exponent. *)
Definition number : Set := spec_float.

(** Object properties are kept in insertion order, as the engine does. *)
Inductive JsValue : Type :=
| JUndefined
| JNull
| JBoolean (b : bool)
| JNumber (n : number)
| JString (s : string)
| JObject (props : list (string * JsValue)).

(** Own-property lookup: the first binding of the key. *)
Fixpoint lookup (props : list (string * JsValue)) (key : string)
  : option JsValue :=
  match props with
  | [] => None
  | (k, v) :: rest => if String.eqb k key then Some v else lookup rest key
  end.

(** The read [v?.[key]]: a property that is absent reads as [undefined]. *)
Definition get_property (v : JsValue) (key : string) : JsValue :=
  match v with
  | JObject props =>
      match lookup props key with
      | Some x => x
      | None => JUndefined
      end
  | _ => JUndefined
  end.

(** ** TypeScript declarations *)

Inductive Modality : Set := Required | Optional.

Inductive TsType : Type :=
| TAny
| TNull
| TString
| TNumber
| TBoolean
| TInterface (members : list (string * Modality * TsType)).

Declare Scope ts_scope.
Delimit Scope ts_scope with ts.
(** [name !: T] is the member [name: T]; [name ?: T] is [name?: T]. *)
Notation "name '!:' T" := (name, Required, T)
  (at level 60, no associativity) : ts_scope.
Notation "name '?:' T" := (name, Optional, T)
  (at level 60, no associativity) : ts_scope.
Local Open Scope ts_scope.

Definition members (t : TsType) : list (string * Modality * TsType) :=
  match t with
  | TInterface ms => ms
  | _ => []
  end.

Definition member_name (m : string * Modality * TsType) : string :=
  fst (fst m).

Definition is_optional (m : string * Modality * TsType) : bool :=
  match snd (fst m) with
  | Optional => true
  | Required => false
  end.

(** Structural typing of a value against a declaration (strict null
    checks).  A required member must be an own property whose value has
    the member's type; an optional member may be absent or [undefined].
    Properties that the declaration does not name are allowed. *)
Fixpoint conforms (v : JsValue) (t : TsType) {struct t} : bool :=
  match t with
  | TAny => true
  | TNull => match v with JNull => true | _ => false end
  | TString => match v with JString _ => true | _ => false end
  | TNumber => match v with JNumber _ => true | _ => false end
  | TBoolean => match v with JBoolean _ => true | _ => false end
  | TInterface ms =>
      match v with
      | JObject props =>
          (fix each (ms : list (string * Modality * TsType)) : bool :=
             match ms with
             | [] => true
             | (name, Required, ft) :: rest =>
                 match lookup props name with
                 | Some pv => conforms pv ft && each rest
                 | None => false
                 end
             | (name, Optional, ft) :: rest =>
                 match lookup props name with
                 | None | Some JUndefined => each rest
                 | Some pv => conforms pv ft && each rest
                 end
             end) ms
      | _ => false
      end
  end.

(** ** response.interface.ts *)

Definition SuccessResponse (dataType : TsType) : TsType :=
  TInterface
    [ "data" !: dataType;
      "message" ?: TString;
      "status" ?: TNumber ].

Definition ErrorResponse : TsType :=
  TInterface
    [ "error" !: TString;
      "message" !: TString;
      "status" !: TNumber;
      "details" ?: TAny ].

Definition FailResponse (dataType : TsType) : TsType :=
  TInterface
    [ "status" ?: TNumber;
      "error" ?: TString;
      "message" ?: TString;
      "data" ?: dataType ].

Definition PaginationResponse : TsType :=
  TInterface
    [ "page" ?: TNumber;
      "size" ?: TNumber;
      "total" ?: TNumber;
      "totalPages" ?: TNumber ].

(** ** The HTTP transport ([axiosClient])

    The transport lives outside these three files.  Only its interface is
    modelled: what the client hands to it and what it hands back. *)

(** How a promise ends: it is fulfilled with a value, rejected with a
    reason, or never settles. *)
Inductive Promise : Type :=
| Fulfilled (value : JsValue)
| Rejected (reason : JsValue)
| Pending.

(** The two entry points of the transport that the client uses,
    [get<T>(url, config)] and [post<T>(url, data)].  [T] is the response
    type the caller declares.  An argument that the caller leaves out is
    [undefined]. *)
Inductive AxiosCall : Type :=
| get (T : TsType) (url : string) (config : JsValue)
| post (T : TsType) (url : string) (data : JsValue).

Inductive Method : Set := GET | POST.

Definition call_method (c : AxiosCall) : Method :=
  match c with
  | get _ _ _ => GET
  | post _ _ _ => POST
  end.

Definition call_url (c : AxiosCall) : string :=
  match c with
  | get _ url _ => url
  | post _ url _ => url
  end.

Definition call_type (c : AxiosCall) : TsType :=
  match c with
  | get T _ _ => T
  | post T _ _ => T
  end.

(** The request body: the [data] argument of [post]; [get] has none. *)
Definition call_data (c : AxiosCall) : JsValue :=
  match c with
  | get _ _ _ => JUndefined
  | post _ _ data => data
  end.

(** The query object: [config.params] of [get]; the client never gives
    [post] a config. *)
Definition call_params (c : AxiosCall) : JsValue :=
  match c with
  | get _ _ config => get_property config "params"
  | post _ _ _ => JUndefined
  end.

(** One query parameter, [undefined] when the request carries none of
    that name. *)
Definition query_param (c : AxiosCall) (name : string) : JsValue :=
  get_property (call_params c) name.

(** Programs over the transport: return a value, or call the transport
    and continue with the promise it hands back. *)
Inductive Axios (R : Type) : Type :=
| Return (r : R)
| Call (c : AxiosCall) (k : Promise -> Axios R).

Arguments Return {R} r.
Arguments Call {R} c k.

(** [axiosClient.get<T>(url, config)] and [axiosClient.post<T>(url, data)]:
    one call, whose promise is the result. *)
Module axiosClient.

Definition get (T : TsType) (url : string) (config : JsValue)
  : Axios Promise := Call (get T url config) Return.

Definition post (T : TsType) (url : string) (data : JsValue)
  : Axios Promise := Call (post T url data) Return.

End axiosClient.

(** ** Running a program against a transport *)

(** What a run leaves behind: the value handed to the caller, the state of
    the world, and the exchanges with the transport in the order they
    happened (the call and the promise it was answered with). *)
Record Run (R W : Type) : Type := {
  returned : R;
  world : W;
  exchanges : list (AxiosCall * Promise)
}.

Section Transport.

(** A transport is any function from a call and the state of the world
    (network, server, interceptors, stored tokens) to a promise and a new
    state. *)
Variable W : Type.
Variable serve : AxiosCall -> W -> Promise * W.

Fixpoint run {R : Type} (p : Axios R) (w : W) : Run R W :=
  match p with
  | Return r => {| returned := r; world := w; exchanges := [] |}
  | Call c k =>
      let (answer, w') := serve c w in
      let rest := run (k answer) w' in
      {| returned := returned rest;
         world := world rest;
         exchanges := (c, answer) :: exchanges rest |}
  end.

(** The calls issued during a run. *)
Definition requests {R : Type} (r : Run R W) : list AxiosCall :=
  map fst (exchanges r).

End Transport.

(** ** auth.interface.ts and auth.service.ts

    [User] (user.interface), [LoginType] (login.type) and [RegisterType]
    (register.type) are declared in files outside this development;
    everything below holds whatever they are. *)

Section AuthService.

Variable User : TsType.
Variable LoginType : TsType.
Variable RegisterType : TsType.

Definition LoginResponse : TsType :=
  TInterface
    [ "access_token" !: TString;
      "refresh_token" !: TString;
      "token_type" ?: TString;
      "user" ?: User ].

Definition SentEmailResponse : TsType :=
  TInterface
    [ "email" ?: TString;
      "message" ?: TString;
      "token" ?: TString ].

Definition RegisterReponse : TsType :=
  TInterface
    [ "id" ?: TNumber;
      "email" ?: TString;
      "full_name" ?: TString;
      "message" ?: TString;
      "is_email_confirmed" ?: TBoolean ].

Definition API_LOGIN_URL : string := "/auth/login".
Definition API_LOGOUT_URL : string := "/auth/logout".
Definition API_REGISTER_URL : string := "/auth/register".
Definition API_SENT_EMAIL_URL : string := "/auth/email/verify".
Definition API_RESET_PASS_URL : string := "/auth/email/reset-password".
Definition API_LOGIN_GOOGLE : string := "/auth/google/callback".

(** An arrow function of one parameter: the declared type of the
    parameter, and the body. *)
Record Arrow : Type := {
  param : TsType;
  body :> JsValue -> Axios Promise
}.

Record AuthApi : Type := {
  login : Arrow;
  register : Arrow;
  resetPassword : Arrow;
  sentEmailAuth : Arrow;
  logout : unit -> Axios Promise;
  loginWithGG : Arrow
}.

Definition authApi : AuthApi := {|
  login := {|
    param := LoginType;
    body := fun params =>
      axiosClient.post (SuccessResponse LoginResponse) API_LOGIN_URL params
  |};
  register := {|
    param := RegisterType;
    body := fun params =>
      axiosClient.post (SuccessResponse RegisterReponse) API_REGISTER_URL params
  |};
  resetPassword := {|
    param := TInterface [ "email" ?: TString ];
    body := fun params =>
      axiosClient.get (SuccessResponse SentEmailResponse) API_RESET_PASS_URL
        (JObject [ ("params", params) ])
  |};
  sentEmailAuth := {|
    param := TInterface [ "email" !: TString ];
    body := fun params =>
      axiosClient.get (SuccessResponse SentEmailResponse) API_SENT_EMAIL_URL
        (JObject [ ("params", params) ])
  |};
  logout := fun _ =>
    axiosClient.post (SuccessResponse TNull) API_LOGOUT_URL JUndefined;
  loginWithGG := {|
    param := TInterface [ "code" !: TString ];
    body := fun params =>
      axiosClient.get (SuccessResponse LoginResponse) API_LOGIN_GOOGLE
        (JObject [ ("params", params) ])
  |}
|}.

(** One invocation of an operation of [authApi], with its argument. *)
Inductive Invocation : Type :=
| CallLogin (params : JsValue)
| CallRegister (params : JsValue)
| CallResetPassword (params : JsValue)
| CallSentEmailAuth (params : JsValue)
| CallLogout
| CallLoginWithGG (params : JsValue).

Definition invoke (i : Invocation) : Axios Promise :=
  match i with
  | CallLogin params => login authApi params
  | CallRegister params => register authApi params
  | CallResetPassword params => resetPassword authApi params
  | CallSentEmailAuth params => sentEmailAuth authApi params
  | CallLogout => logout authApi tt
  | CallLoginWithGG params => loginWithGG authApi params
  end.

(** The names of the six operations, and the endpoint each is documented
    to use (the endpoint table of the interface description: operation,
    method, path). *)
Inductive Operation : Set :=
| Login | Register | ResetPassword | SentEmailAuth | Logout | LoginWithGG.

Definition operation (i : Invocation) : Operation :=
  match i with
  | CallLogin _ => Login
  | CallRegister _ => Register
  | CallResetPassword _ => ResetPassword
  | CallSentEmailAuth _ => SentEmailAuth
  | CallLogout => Logout
  | CallLoginWithGG _ => LoginWithGG
  end.

Definition documented_method (op : Operation) : Method :=
  match op with
  | Login => POST
  | Register => POST
  | ResetPassword => GET
  | SentEmailAuth => GET
  | Logout => POST
  | LoginWithGG => GET
  end.

Definition documented_path (op : Operation) : string :=
  match op with
  | Login => "/auth/login"
  | Register => "/auth/register"
  | ResetPassword => "/auth/email/reset-password"
  | SentEmailAuth => "/auth/email/verify"
  | Logout => "/auth/logout"
  | LoginWithGG => "/auth/google/callback"
  end.

(** The state of the world after a sequence of invocations, each run to
    its end before the next starts. *)
Fixpoint after (W : Type) (serve : AxiosCall -> W -> Promise * W)
    (history : list Invocation) (w : W) : W :=
  match history with
  | [] => w
  | i :: rest => after serve rest (world (run serve (invoke i) w))
  end.


(** The exchanges of a sequence of invocations, each run to its end
    before the next starts, in the order they happen. *)
Fixpoint session (W : Type) (serve : AxiosCall -> W -> Promise * W)
    (history : list Invocation) (w : W) : list (AxiosCall * Promise) :=
  match history with
  | [] => []
  | i :: rest =>
      let r := run serve (invoke i) w in
      exchanges r ++ session serve rest (world r)
  end.

End AuthService.

(** ** Sample transports and values *)

(** A transport that settles every call the same way and counts the calls
    it has served. *)
Definition always (answer : Promise) (c : AxiosCall) (served : nat)
  : Promise * nat := (answer, S served).

(** [{data: {access_token: "t1", refresh_token: "t2"}}] *)
Definition tokens_t1_t2 : JsValue :=
  JObject
    [ ("data",
       JObject [ ("access_token", JString "t1");
                 ("refresh_token", JString "t2") ]) ].

(** [{email: "a@b.com", password: "secret"}] *)
Definition sample_credentials : JsValue :=
  JObject [ ("email", JString "a@b.com"); ("password", JString "secret") ].

(** [{message: "Network Error"}] *)
Definition network_error : JsValue :=
  JObject [ ("message", JString "Network Error") ].

(** [{email: "a@b.com"}] *)
Definition sample_email : JsValue :=
  JObject [ ("email", JString "a@b.com") ].

(** [{code: "4/0AX4XfWh"}] *)
Definition sample_code : JsValue :=
  JObject [ ("code", JString "4/0AX4XfWh") ].

(** [{error: "Unauthorized", message: "Bad credentials", status: 401}] *)
Definition sample_error : JsValue :=
  JObject
    [ ("error", JString "Unauthorized");
      ("message", JString "Bad credentials");
      ("status", JNumber (S754_finite false 401 0)) ].

(** [{data: null, message: "Bye"}] *)
Definition sample_goodbye : JsValue :=
  JObject [ ("data", JNull); ("message", JString "Bye") ].

(** [{data: {id: 7, email: "a@b.com", is_email_confirmed: false}}] *)
Definition sample_registered : JsValue :=
  JObject
    [ ("data",
       JObject [ ("id", JNumber (S754_finite false 7 0));
                 ("email", JString "a@b.com");
                 ("is_email_confirmed", JBoolean false) ]) ].

(** [{data: {email: "a@b.com", message: "Sent"}}] *)
Definition sample_sent : JsValue :=
  JObject
    [ ("data",
       JObject [ ("email", JString "a@b.com");
                 ("message", JString "Sent") ]) ].

(** A transport that answers by path: it fulfils [login] with the two
    tokens, rejects [register] with [sample_error], leaves the
    email-verification request unsettled and fulfils everything else with
    [sample_goodbye].  Its state is the list of paths served so far, the
    latest first. *)
Definition by_path (c : AxiosCall) (served : list string)
  : Promise * list string :=
  (if String.eqb (call_url c) "/auth/login" then Fulfilled tokens_t1_t2
   else if String.eqb (call_url c) "/auth/register" then Rejected sample_error
   else if String.eqb (call_url c) "/auth/email/verify" then Pending
   else Fulfilled sample_goodbye,
   call_url c :: served).

(** * Properties *)

(** ** The contract layer *)

(** C9.  Every member of [PaginationResponse] (page, size, total,
    totalPages) and every member of [FailResponse<T>] (status, error,
    message, data) is optional, and the empty object [{}] is an instance
    of [PaginationResponse] and of [FailResponse<T>] for every [T]. *)
Theorem pagination_and_fail_members_all_optional :
  map member_name (members PaginationResponse)
    = ["page"; "size"; "total"; "totalPages"]
  /\ forallb is_optional (members PaginationResponse) = true
  /\ conforms (JObject []) PaginationResponse = true
  /\ forall T : TsType,
       map member_name (members (FailResponse T))
         = ["status"; "error"; "message"; "data"]
       /\ forallb is_optional (members (FailResponse T)) = true
       /\ conforms (JObject []) (FailResponse T) = true.
Proof.
  repeat split; reflexivity.
Qed.

(** The same does not hold of the other two envelopes: [{}] lacks the
    required [data] of [SuccessResponse<T>] and the required members of
    [ErrorResponse]. *)
Lemma empty_object_not_success_nor_error :
  (forall T, conforms (JObject []) (SuccessResponse T) = false)
  /\ conforms (JObject []) ErrorResponse = false.
Proof.
  split; reflexivity.
Qed.

(** The login response of the interface description is an instance of
    [SuccessResponse<LoginResponse>]; without its refresh token it is not;
    and a value that is not an object is an instance of no interface. *)
Example tokens_conform :
  forall User : TsType,
    conforms tokens_t1_t2 (SuccessResponse (LoginResponse User)) = true
    /\ conforms
         (JObject [ ("data", JObject [ ("access_token", JString "t1") ]) ])
         (SuccessResponse (LoginResponse User)) = false
    /\ conforms (JString "t1") (SuccessResponse (LoginResponse User)) = false.
Proof.
  intros User. repeat split; reflexivity.
Qed.

(** A member of the wrong type is refused even when it is optional
    ([{page: "1"}] against [{page: 1}]), and a property the declaration
    does not name is let through. *)
Example pagination_members_checked :
  conforms (JObject [ ("page", JString "1") ]) PaginationResponse = false
  /\ conforms (JObject [ ("page", JNumber (S754_finite false BinNums.xH BinNums.Z0)) ]) PaginationResponse
     = true
  /\ conforms (JObject [ ("cursor", JString "x") ]) PaginationResponse = true.
Proof.
  repeat split; reflexivity.
Qed.

(** ** The client layer *)

Section Properties.

Variable User : TsType.
Variable LoginType : TsType.
Variable RegisterType : TsType.

Local Abbreviation api := (authApi User LoginType RegisterType).
Local Abbreviation invoke := (invoke User LoginType RegisterType).

Section OneTransport.

Variable W : Type.
Variable serve : AxiosCall -> W -> Promise * W.

(** Running a single forwarded call: one exchange, and the promise the
    transport answered with is the value handed to the caller. *)
Lemma run_forward :
  forall (c : AxiosCall) (w : W),
    run serve (Call c Return) w
    = {| returned := fst (serve c w);
         world := snd (serve c w);
         exchanges := [(c, fst (serve c w))] |}.
Proof.
  intros c w. cbn [run]. destruct (serve c w) as [answer w']. reflexivity.
Qed.

(** Every operation is a single forwarded call. *)
Lemma invoke_forwards :
  forall i : Invocation, exists c : AxiosCall, invoke i = Call c Return.
Proof.
  intros [params | params | params | params | | params];
    cbn; unfold axiosClient.get, axiosClient.post; eexists; reflexivity.
Qed.

(** So the only exchange of an invocation is answered with the very
    promise the caller receives. *)
Lemma invoke_exchange :
  forall (i : Invocation) (w : W),
    exists c : AxiosCall,
      exchanges (run serve (invoke i) w)
      = [(c, returned (run serve (invoke i) w))].
Proof.
  intros i w. destruct (invoke_forwards i) as [c E].
  exists c. rewrite E, run_forward. reflexivity.
Qed.

(** C1.  Whatever the transport and the state of the world, each
    invocation of each of the six operations issues exactly one request,
    with the documented method and path. *)
Theorem invocation_issues_one_documented_request :
  forall (i : Invocation) (w : W),
    exists c : AxiosCall,
      requests (run serve (invoke i) w) = [c]
      /\ call_method c = documented_method (operation i)
      /\ call_url c = documented_path (operation i).
Proof.
  intros i w.
  destruct i as [params | params | params | params | | params];
    cbn [invoke authApi login register resetPassword sentEmailAuth logout
         loginWithGG body];
    unfold axiosClient.get, axiosClient.post;
    rewrite run_forward; eexists; repeat split.
Qed.

(** C2.  For every string [e], [resetPassword({email: e})] and
    [sentEmailAuth({email: e})] each issue one GET whose query object is
    the argument, so that its [email] parameter is [e]; the first goes to
    the reset-password path, the second to the email-verification path,
    and the two paths differ. *)
Theorem email_operations_send_email_as_query :
  forall (e : string) (w : W),
    let arg := JObject [ ("email", JString e) ] in
    (exists c : AxiosCall,
       requests (run serve (resetPassword api arg) w) = [c]
       /\ call_method c = GET
       /\ call_url c = API_RESET_PASS_URL
       /\ call_params c = arg
       /\ query_param c "email" = JString e
       /\ call_data c = JUndefined)
    /\ (exists c : AxiosCall,
          requests (run serve (sentEmailAuth api arg) w) = [c]
          /\ call_method c = GET
          /\ call_url c = API_SENT_EMAIL_URL
          /\ call_params c = arg
          /\ query_param c "email" = JString e
          /\ call_data c = JUndefined)
    /\ API_RESET_PASS_URL <> API_SENT_EMAIL_URL.
Proof.
  intros e w arg. split; [ | split ].
  - cbn [resetPassword authApi body]. unfold axiosClient.get.
    rewrite run_forward. eexists. repeat split.
  - cbn [sentEmailAuth authApi body]. unfold axiosClient.get.
    rewrite run_forward. eexists. repeat split.
  - discriminate.
Qed.

(** C3.  For every value [c], [login(c)] issues one POST to the login
    path whose body is [c] itself and whose declared response type is
    [SuccessResponse<LoginResponse>]; for every value [r], [register(r)]
    issues one POST to the register path whose body is [r] itself and
    whose declared response type is [SuccessResponse<RegisterReponse>]. *)
Theorem login_and_register_post_argument_as_body :
  forall (c r : JsValue) (w : W),
    (exists q : AxiosCall,
       requests (run serve (login api c) w) = [q]
       /\ call_method q = POST
       /\ call_url q = API_LOGIN_URL
       /\ call_data q = c
       /\ call_type q = SuccessResponse (LoginResponse User))
    /\ (exists q : AxiosCall,
          requests (run serve (register api r) w) = [q]
          /\ call_method q = POST
          /\ call_url q = API_REGISTER_URL
          /\ call_data q = r
          /\ call_type q = SuccessResponse RegisterReponse).
Proof.
  intros c r w. split.
  - cbn [login authApi body]. unfold axiosClient.post.
    rewrite run_forward. eexists. repeat split.
  - cbn [register authApi body]. unfold axiosClient.post.
    rewrite run_forward. eexists. repeat split.
Qed.

(** C4.  [logout()] takes no input (its argument is the unit value) and
    issues one POST to the logout path with no body and no query object;
    the declared response type is [SuccessResponse<null>]. *)
Theorem logout_posts_without_body :
  forall (w : W),
    exists q : AxiosCall,
      requests (run serve (logout api tt) w) = [q]
      /\ call_method q = POST
      /\ call_url q = API_LOGOUT_URL
      /\ call_data q = JUndefined
      /\ call_params q = JUndefined
      /\ call_type q = SuccessResponse TNull.
Proof.
  intros w. cbn [logout authApi]. unfold axiosClient.post.
  rewrite run_forward. eexists. repeat split.
Qed.

(** C5.  For every string [c], [loginWithGG({code: c})] issues one GET to
    the Google-callback path whose query object is the argument, so that
    its [code] parameter is [c]; the declared response type is
    [SuccessResponse<LoginResponse>]. *)
Theorem loginWithGG_sends_code_as_query :
  forall (c : string) (w : W),
    let arg := JObject [ ("code", JString c) ] in
    exists q : AxiosCall,
      requests (run serve (loginWithGG api arg) w) = [q]
      /\ call_method q = GET
      /\ call_url q = API_LOGIN_GOOGLE
      /\ call_params q = arg
      /\ query_param q "code" = JString c
      /\ call_type q = SuccessResponse (LoginResponse User).
Proof.
  intros c w arg. cbn [loginWithGG authApi body]. unfold axiosClient.get.
  rewrite run_forward. eexists. repeat split.
Qed.

(** C6.  Whatever value the transport fulfils a [login] call with, the
    promise [login] hands to its caller is fulfilled with that same
    value. *)
Theorem login_returns_response_unchanged :
  forall (params : JsValue) (w : W) (q : AxiosCall) (v : JsValue),
    In (q, Fulfilled v) (exchanges (run serve (login api params) w)) ->
    returned (run serve (login api params) w) = Fulfilled v.
Proof.
  intros params w q v Hin.
  destruct (invoke_exchange (CallLogin params) w) as [c E].
  cbn [invoke] in E. rewrite E in Hin.
  destruct Hin as [Hq | []]. congruence.
Qed.

(** C7.  For each of the six operations and every reason [e]: when the
    transport rejects the call with [e], the promise handed to the caller
    is rejected with [e], and that rejected call is the only one the
    operation made (nothing is retried, nothing is put in its place). *)
Theorem rejection_propagates :
  forall (i : Invocation) (w : W) (q : AxiosCall) (e : JsValue),
    In (q, Rejected e) (exchanges (run serve (invoke i) w)) ->
    returned (run serve (invoke i) w) = Rejected e
    /\ exchanges (run serve (invoke i) w) = [(q, Rejected e)].
Proof.
  intros i w q e Hin.
  destruct (invoke_exchange i w) as [c E].
  rewrite E in Hin. destruct Hin as [Hq | []].
  injection Hq as Hc Hr. split.
  - exact Hr.
  - rewrite E, Hr, Hc. reflexivity.
Qed.

(** C10.  The parameter of [resetPassword] declares [email] optional and
    that of [sentEmailAuth] declares it required: [{}] and
    [{email: undefined}] are accepted by the first, and [{}] is not
    accepted by the second.  Given either, [resetPassword] issues one GET
    to the reset-password path whose query has no [email] parameter. *)
Theorem resetPassword_email_is_optional :
  forall (w : W),
    let absent := JObject [] in
    let undef := JObject [ ("email", JUndefined) ] in
    forallb is_optional (members (param (resetPassword api))) = true
    /\ forallb is_optional (members (param (sentEmailAuth api))) = false
    /\ conforms absent (param (resetPassword api)) = true
    /\ conforms undef (param (resetPassword api)) = true
    /\ conforms absent (param (sentEmailAuth api)) = false
    /\ (exists q : AxiosCall,
          requests (run serve (resetPassword api absent) w) = [q]
          /\ call_method q = GET
          /\ call_url q = API_RESET_PASS_URL
          /\ query_param q "email" = JUndefined)
    /\ (exists q : AxiosCall,
          requests (run serve (resetPassword api undef) w) = [q]
          /\ call_method q = GET
          /\ call_url q = API_RESET_PASS_URL
          /\ query_param q "email" = JUndefined).
Proof.
  intros w absent undef.
  repeat match goal with |- _ /\ _ => split end; try reflexivity.
  - cbn [resetPassword authApi body]. unfold axiosClient.get.
    rewrite run_forward. eexists. repeat split.
  - cbn [resetPassword authApi body]. unfold axiosClient.get.
    rewrite run_forward. eexists. repeat split.
Qed.

End OneTransport.

(** C8.  The operations share no mutable state: the request an
    invocation issues is determined by the operation and its argument
    alone.  For every invocation there is one request [c] such that, on
    every transport, from every state of the world and after every
    sequence of earlier invocations, the invocation issues exactly [c];
    and the only change it makes to the world is the one the transport
    makes while serving [c]. *)
Theorem request_depends_only_on_arguments :
  forall i : Invocation,
    exists c : AxiosCall,
      forall (W : Type) (serve : AxiosCall -> W -> Promise * W)
             (history : list Invocation) (w : W),
        let before := after User LoginType RegisterType serve history w in
        requests (run serve (invoke i) before) = [c]
        /\ world (run serve (invoke i) before) = snd (serve c before).
Proof.
  intros i. destruct (invoke_forwards i) as [c E]. exists c.
  intros W serve history w before. rewrite E, run_forward. split; reflexivity.
Qed.

(** Hence two invocations with equal arguments issue identical requests,
    whatever ran before either of them and whichever transport serves
    them. *)
Corollary equal_invocations_issue_equal_requests :
  forall (i : Invocation)
         (W1 W2 : Type)
         (serve1 : AxiosCall -> W1 -> Promise * W1)
         (serve2 : AxiosCall -> W2 -> Promise * W2)
         (history1 history2 : list Invocation) (w1 : W1) (w2 : W2),
    requests (run serve1 (invoke i)
                (after User LoginType RegisterType serve1 history1 w1))
    = requests (run serve2 (invoke i)
                  (after User LoginType RegisterType serve2 history2 w2)).
Proof.
  intros i W1 W2 serve1 serve2 history1 history2 w1 w2.
  destruct (invoke_forwards i) as [c E].
  rewrite E, !run_forward. reflexivity.
Qed.

End Properties.

(** ** The properties at work on sample inputs *)

(** A transport that fulfils [login] with
    [{data: {access_token: "t1", refresh_token: "t2"}}]: the caller gets
    exactly that value. *)
Lemma login_returns_response_unchanged_witness :
  let r := run (always (Fulfilled tokens_t1_t2))
               (login (authApi TAny TAny TAny) sample_credentials) 0 in
  In (post (SuccessResponse (LoginResponse TAny)) API_LOGIN_URL
        sample_credentials,
      Fulfilled tokens_t1_t2)
     (exchanges r)
  /\ returned r = Fulfilled tokens_t1_t2.
Proof.
  cbv zeta. split.
  - left. reflexivity.
  - apply (@login_returns_response_unchanged TAny TAny TAny nat
             (always (Fulfilled tokens_t1_t2)) sample_credentials 0
             (post (SuccessResponse (LoginResponse TAny)) API_LOGIN_URL
                sample_credentials)
             tokens_t1_t2).
    left. reflexivity.
Defined.

(** A transport that rejects every call with a network error: [logout]
    is rejected with that error after a single call. *)
Lemma rejection_propagates_witness :
  let r := run (always (Rejected network_error))
               (invoke TAny TAny TAny CallLogout) 0 in
  In (post (SuccessResponse TNull) API_LOGOUT_URL JUndefined,
      Rejected network_error)
     (exchanges r)
  /\ returned r = Rejected network_error
  /\ exchanges r
     = [(post (SuccessResponse TNull) API_LOGOUT_URL JUndefined,
         Rejected network_error)].
Proof.
  cbv zeta. split.
  - left. reflexivity.
  - apply (@rejection_propagates TAny TAny TAny nat
             (always (Rejected network_error)) CallLogout 0
             (post (SuccessResponse TNull) API_LOGOUT_URL JUndefined)
             network_error).
    left. reflexivity.
Defined.

(** * Further properties of the client and of the contracts *)

(** ** Reading members off an instance *)

(** Only objects are instances of an interface. *)
Lemma conforms_object :
  forall (v : JsValue) (ms : list (string * Modality * TsType)),
    conforms v (TInterface ms) = true -> exists props, v = JObject props.
Proof.
  intros v ms H. destruct v; try discriminate H. eexists; reflexivity.
Qed.

(** An instance of a declaration is an instance of the declaration
    without its first member. *)
Lemma conforms_tail :
  forall (props : list (string * JsValue)) (m : string * Modality * TsType)
         (rest : list (string * Modality * TsType)),
    conforms (JObject props) (TInterface (m :: rest)) = true ->
    conforms (JObject props) (TInterface rest) = true.
Proof.
  intros props [[name [ | ]] T] rest H; cbn in H |- *.
  - destruct (lookup props name); [ | discriminate H ].
    apply andb_prop in H. apply H.
  - destruct (lookup props name) as [ [ ] | ];
      first [ exact H | apply andb_prop in H; apply H ].
Qed.

(** A required member of an instance is an own property of the member's
    type. *)
Lemma conforms_required :
  forall (props : list (string * JsValue))
         (ms : list (string * Modality * TsType))
         (name : string) (T : TsType),
    In (name, Required, T) ms ->
    conforms (JObject props) (TInterface ms) = true ->
    exists pv, lookup props name = Some pv /\ conforms pv T = true.
Proof.
  intros props ms name T. induction ms as [ | m rest IH ]; intros Hin H.
  - destruct Hin.
  - destruct Hin as [-> | Hin].
    + cbn in H. destruct (lookup props name) as [pv | ]; [ | discriminate H ].
      apply andb_prop in H. exists pv. split; [ reflexivity | apply H ].
    + apply IH; [ exact Hin | ]. exact (conforms_tail _ _ _ H).
Qed.

(** An optional member of an instance reads as [undefined] or as a value
    of the member's type. *)
Lemma conforms_optional :
  forall (props : list (string * JsValue))
         (ms : list (string * Modality * TsType))
         (name : string) (T : TsType),
    In (name, Optional, T) ms ->
    conforms (JObject props) (TInterface ms) = true ->
    get_property (JObject props) name = JUndefined
    \/ conforms (get_property (JObject props) name) T = true.
Proof.
  intros props ms name T. induction ms as [ | m rest IH ]; intros Hin H.
  - destruct Hin.
  - destruct Hin as [-> | Hin].
    + cbn in H |- *.
      destruct (lookup props name) as [ [ ] | ];
        first [ left; reflexivity
              | right; apply andb_prop in H; apply H ].
    + apply IH; [ exact Hin | ]. exact (conforms_tail _ _ _ H).
Qed.

(** The values of type [string]. *)
Lemma conforms_string :
  forall v : JsValue, conforms v TString = true -> exists s, v = JString s.
Proof.
  intros v H. destruct v; try discriminate H. eexists; reflexivity.
Qed.

(** A required [string] member reads as a string. *)
Lemma required_string_member :
  forall (v : JsValue) (ms : list (string * Modality * TsType))
         (name : string),
    In (name, Required, TString) ms ->
    conforms v (TInterface ms) = true ->
    exists s, get_property v name = JString s.
Proof.
  intros v ms name Hin H.
  destruct (conforms_object _ _ H) as [props ->].
  destruct (conforms_required _ _ _ _ Hin H) as [pv [L Hpv]].
  destruct (conforms_string _ Hpv) as [s ->].
  exists s. cbn. rewrite L. reflexivity.
Qed.

(** An optional member reads as [undefined] or as a value of its type. *)
Lemma optional_member :
  forall (v : JsValue) (ms : list (string * Modality * TsType))
         (name : string) (T : TsType),
    In (name, Optional, T) ms ->
    conforms v (TInterface ms) = true ->
    get_property v name = JUndefined
    \/ conforms (get_property v name) T = true.
Proof.
  intros v ms name T Hin H.
  destruct (conforms_object _ _ H) as [props ->].
  exact (conforms_optional _ _ _ _ Hin H).
Qed.

(** The [data] of an instance of [SuccessResponse<D>] is an instance of
    [D]. *)
Lemma success_data :
  forall (D : TsType) (v : JsValue),
    conforms v (SuccessResponse D) = true ->
    conforms (get_property v "data") D = true.
Proof.
  intros D v H.
  destruct (conforms_object _ _ H) as [props ->].
  destruct (@conforms_required props (members (SuccessResponse D)) "data" D
              (or_introl eq_refl) H) as [d [L Hd]].
  cbn. rewrite L. exact Hd.
Qed.

Section ClientProperties.

Variable User : TsType.
Variable LoginType : TsType.
Variable RegisterType : TsType.

Local Abbreviation api := (authApi User LoginType RegisterType).
Local Abbreviation invoke := (invoke User LoginType RegisterType).

(** Exposes the single forwarded call of every operation in the goal. *)
Ltac forwarded :=
  cbn [invoke authApi login register resetPassword sentEmailAuth
       logout loginWithGG body];
  unfold axiosClient.get, axiosClient.post;
  rewrite ?run_forward.

Section OneTransport.

Variable W : Type.
Variable serve : AxiosCall -> W -> Promise * W.

(** X1.  The path of a request tells which operation issued it: two
    invocations whose requests go to the same path are invocations of the
    same operation. *)
Theorem path_determines_operation :
  forall (i j : Invocation) (w1 w2 : W) (ci cj : AxiosCall),
    In ci (requests (run serve (invoke i) w1)) ->
    In cj (requests (run serve (invoke j) w2)) ->
    call_url ci = call_url cj ->
    operation i = operation j.
Proof.
  intros i j w1 w2 ci cj.
  destruct i, j; forwarded; cbn;
    intros [<- | []] [<- | []]; cbn; intros E;
    first [ reflexivity | discriminate E ].
Qed.


(** X3.  Distinct invocations never look alike to the transport: when two
    invocations issue the same requests, they are the same operation
    called with the same argument. *)
Theorem invocations_distinct_on_the_wire :
  forall (i j : Invocation) (w1 w2 : W),
    requests (run serve (invoke i) w1) = requests (run serve (invoke j) w2) ->
    i = j.
Proof.
  intros i j w1 w2.
  destruct i, j; forwarded; cbn; intros E;
    first [ reflexivity | discriminate E | (injection E as ->; reflexivity) ].
Qed.

(** X4.  An operation hands back the transport's promise whatever becomes
    of it: the promise the caller holds ends exactly as the transport's
    does, be it fulfilled, rejected or never settled, and the call that
    produced it is the only one made. *)
Theorem operation_hands_back_transport_promise :
  forall (i : Invocation) (w : W) (q : AxiosCall) (p : Promise),
    In (q, p) (exchanges (run serve (invoke i) w)) ->
    returned (run serve (invoke i) w) = p
    /\ exchanges (run serve (invoke i) w) = [(q, p)].
Proof.
  intros i w q p Hin.
  destruct (invoke_exchange User LoginType RegisterType serve i w) as [c E].
  rewrite E in Hin |- *. destruct Hin as [Hq | []].
  injection Hq as -> ->. split; reflexivity.
Qed.

(** X5.  An argument of the type [sentEmailAuth] declares always puts a
    string [email] parameter in the query of the request, which goes to
    the email-verification path. *)
Theorem sentEmailAuth_typed_argument_sends_email :
  forall (arg : JsValue) (w : W),
    conforms arg (param (sentEmailAuth api)) = true ->
    exists (q : AxiosCall) (e : string),
      requests (run serve (sentEmailAuth api arg) w) = [q]
      /\ call_method q = GET
      /\ call_url q = API_SENT_EMAIL_URL
      /\ query_param q "email" = JString e.
Proof.
  intros arg w H.
  destruct (@required_string_member arg (members (param (sentEmailAuth api))) "email" (or_introl eq_refl) H)
    as [e He].
  forwarded. eexists. exists e. repeat split. exact He.
Qed.

(** X6.  An argument of the type [loginWithGG] declares always puts a
    string [code] parameter in the query of the request, which goes to
    the Google-callback path. *)
Theorem loginWithGG_typed_argument_sends_code :
  forall (arg : JsValue) (w : W),
    conforms arg (param (loginWithGG api)) = true ->
    exists (q : AxiosCall) (c : string),
      requests (run serve (loginWithGG api arg) w) = [q]
      /\ call_method q = GET
      /\ call_url q = API_LOGIN_GOOGLE
      /\ query_param q "code" = JString c.
Proof.
  intros arg w H.
  destruct (@required_string_member arg (members (param (loginWithGG api))) "code" (or_introl eq_refl) H)
    as [c Hc].
  forwarded. eexists. exists c. repeat split. exact Hc.
Qed.

(** X7.  An argument of the type [resetPassword] declares puts either no
    [email] parameter or a string [email] parameter in the query of the
    request, never an [email] of another kind. *)
Theorem resetPassword_typed_argument_sends_string_or_nothing :
  forall (arg : JsValue) (w : W),
    conforms arg (param (resetPassword api)) = true ->
    exists q : AxiosCall,
      requests (run serve (resetPassword api arg) w) = [q]
      /\ call_method q = GET
      /\ call_url q = API_RESET_PASS_URL
      /\ (query_param q "email" = JUndefined
          \/ exists e : string, query_param q "email" = JString e).
Proof.
  intros arg w H.
  destruct (conforms_object _ _ H) as [props ->].
  destruct (@conforms_optional props (members (param (resetPassword api))) "email" TString
              (or_introl eq_refl) H) as [U | S].
  - forwarded. eexists. repeat split. left. exact U.
  - destruct (conforms_string _ S) as [e He].
    forwarded. eexists. repeat split. right. exists e. exact He.
Qed.

(** X8.  When the transport fulfils [login] or [loginWithGG] with a value
    of the response type the operation declares, the caller receives that
    value and can read both tokens from it: [data.access_token] and
    [data.refresh_token] are strings. *)
Theorem login_success_carries_tokens :
  forall (i : Invocation) (w : W) (q : AxiosCall) (v : JsValue),
    operation i = Login \/ operation i = LoginWithGG ->
    In (q, Fulfilled v) (exchanges (run serve (invoke i) w)) ->
    conforms v (call_type q) = true ->
    returned (run serve (invoke i) w) = Fulfilled v
    /\ exists access refresh : string,
         get_property (get_property v "data") "access_token" = JString access
         /\ get_property (get_property v "data") "refresh_token"
            = JString refresh.
Proof.
  intros i w q v Hop Hin Hv.
  assert (Ht : call_type q = SuccessResponse (LoginResponse User)).
  { destruct i; destruct Hop as [Hop | Hop]; try discriminate Hop;
      revert Hin; forwarded; intros [Hq | []];
      injection Hq as <- _; reflexivity. }
  rewrite Ht in Hv.
  destruct (invoke_exchange User LoginType RegisterType serve i w) as [c E].
  rewrite E in Hin. destruct Hin as [Hq | []]. injection Hq as _ Hr.
  split; [ exact Hr | ].
  destruct (conforms_object _ _ Hv) as [props ->].
  destruct (@conforms_required props
              (members (SuccessResponse (LoginResponse User))) "data"
              (LoginResponse User) (or_introl eq_refl) Hv)
    as [d [Ld Hd]].
  cbn [get_property]. rewrite Ld.
  destruct (@required_string_member d (members (LoginResponse User)) "access_token"
              (or_introl eq_refl) Hd) as [access Ha].
  destruct (@required_string_member d (members (LoginResponse User)) "refresh_token"
              (or_intror (or_introl eq_refl)) Hd) as [refresh Hf].
  exists access, refresh. split; assumption.
Qed.

(** X9.  When the transport fulfils [logout] with a value of the response
    type [logout] declares, the caller receives that value and its [data]
    is [null]. *)
Theorem logout_success_carries_null :
  forall (w : W) (q : AxiosCall) (v : JsValue),
    In (q, Fulfilled v) (exchanges (run serve (logout api tt) w)) ->
    conforms v (call_type q) = true ->
    returned (run serve (logout api tt) w) = Fulfilled v
    /\ get_property v "data" = JNull.
Proof.
  intros w q v. forwarded. intros [Hq | []] Hv.
  injection Hq as <- Hr. split; [ exact Hr | ].
  cbn [call_type] in Hv.
  destruct (conforms_object _ _ Hv) as [props ->].
  destruct (@conforms_required props (members (SuccessResponse TNull))
              "data" TNull (or_introl eq_refl) Hv)
    as [d [Ld Hd]].
  cbn [get_property]. rewrite Ld.
  destruct d; try discriminate Hd. reflexivity.
Qed.

(** X10.  When the transport fulfils [register] with a value of the
    response type [register] declares, the caller receives that value;
    its [data.id] reads as [undefined] or a number and its
    [data.is_email_confirmed] as [undefined] or a boolean. *)
Theorem register_success_members :
  forall (params : JsValue) (w : W) (q : AxiosCall) (v : JsValue),
    In (q, Fulfilled v) (exchanges (run serve (register api params) w)) ->
    conforms v (call_type q) = true ->
    returned (run serve (register api params) w) = Fulfilled v
    /\ (get_property (get_property v "data") "id" = JUndefined
        \/ exists n : number,
             get_property (get_property v "data") "id" = JNumber n)
    /\ (get_property (get_property v "data") "is_email_confirmed"
        = JUndefined
        \/ exists b : bool,
             get_property (get_property v "data") "is_email_confirmed"
             = JBoolean b).
Proof.
  intros params w q v. forwarded. intros [Hq | []] Hv.
  injection Hq as <- Hr. split; [ exact Hr | ].
  cbn [call_type] in Hv. apply success_data in Hv.
  split.
  - destruct (@optional_member _ (members RegisterReponse) "id" TNumber
                (or_introl eq_refl) Hv) as [U | N].
    + left. exact U.
    + right. destruct (get_property (get_property v "data") "id");
        try discriminate N. eexists; reflexivity.
  - destruct (@optional_member _ (members RegisterReponse)
                "is_email_confirmed" TBoolean
                (or_intror (or_intror (or_intror (or_intror
                   (or_introl eq_refl))))) Hv) as [U | B].
    + left. exact U.
    + right.
      destruct (get_property (get_property v "data") "is_email_confirmed");
        try discriminate B. eexists; reflexivity.
Qed.

(** X11.  [resetPassword] and [sentEmailAuth] declare the same response
    type.  When the transport fulfils either with a value of that type,
    the caller receives that value, and each of [data.email],
    [data.message] and [data.token] reads as [undefined] or a string. *)
Theorem email_success_members :
  forall (i : Invocation) (w : W) (q : AxiosCall) (v : JsValue)
         (name : string),
    operation i = ResetPassword \/ operation i = SentEmailAuth ->
    In (q, Fulfilled v) (exchanges (run serve (invoke i) w)) ->
    conforms v (call_type q) = true ->
    In name [ "email"; "message"; "token" ] ->
    call_type q = SuccessResponse SentEmailResponse
    /\ returned (run serve (invoke i) w) = Fulfilled v
    /\ (get_property (get_property v "data") name = JUndefined
        \/ exists s : string,
             get_property (get_property v "data") name = JString s).
Proof.
  intros i w q v name Hop Hin Hv Hname.
  assert (Ht : call_type q = SuccessResponse SentEmailResponse).
  { destruct i; destruct Hop as [Hop | Hop]; try discriminate Hop;
      revert Hin; forwarded; intros [Hq | []];
      injection Hq as <- _; reflexivity. }
  split; [ exact Ht | ].
  rewrite Ht in Hv. apply success_data in Hv.
  destruct (invoke_exchange User LoginType RegisterType serve i w) as [c E].
  rewrite E in Hin. destruct Hin as [Hq | []]. injection Hq as _ Hr.
  split; [ exact Hr | ].
  assert (Hm : In (name, Optional, TString) (members SentEmailResponse)).
  { cbn. cbn in Hname.
    destruct Hname as [<- | [<- | [<- | []]]]; auto. }
  destruct (optional_member _ _ _ _ Hm Hv) as [U | S].
  - left. exact U.
  - right. exact (conforms_string _ S).
Qed.

(** X12.  A sequence of invocations issues one request per invocation,
    in the order of the invocations, each with the method and path of its
    operation. *)
Theorem session_one_request_per_invocation :
  forall (history : list Invocation) (w : W),
    Forall2
      (fun (i : Invocation) (x : AxiosCall * Promise) =>
         call_method (fst x) = documented_method (operation i)
         /\ call_url (fst x) = documented_path (operation i))
      history
      (session User LoginType RegisterType serve history w)
    /\ length (session User LoginType RegisterType serve history w)
       = length history.
Proof.
  assert (F : forall history w,
             Forall2
               (fun (i : Invocation) (x : AxiosCall * Promise) =>
                  call_method (fst x) = documented_method (operation i)
                  /\ call_url (fst x) = documented_path (operation i))
               history
               (session User LoginType RegisterType serve history w)).
  { induction history as [ | i rest IH ]; intros w; cbn [session].
    - constructor.
    - destruct i; forwarded; cbn [exchanges world app];
        (constructor; [ split; reflexivity | apply IH ]). }
  intros history w. split.
  - apply F.
  - symmetry. exact (Forall2_length (F history w)).
Qed.

End OneTransport.

(** X13.  The requests of a sequence of invocations do not depend on
    what the transport answers: on any two transports, from any two
    states of the world, the same invocations issue the same requests.
    Nothing a response carries finds its way into a later request. *)
Theorem session_requests_ignore_transport :
  forall (W1 W2 : Type)
         (serve1 : AxiosCall -> W1 -> Promise * W1)
         (serve2 : AxiosCall -> W2 -> Promise * W2)
         (history : list Invocation) (w1 : W1) (w2 : W2),
    map fst (session User LoginType RegisterType serve1 history w1)
    = map fst (session User LoginType RegisterType serve2 history w2).
Proof.
  intros W1 W2 serve1 serve2.
  induction history as [ | i rest IH ]; intros w1 w2; cbn [session].
  - reflexivity.
  - destruct (invoke_forwards User LoginType RegisterType i) as [c E].
    rewrite E, !run_forward. cbn [exchanges world app map fst].
    f_equal. apply IH.
Qed.

End ClientProperties.

(** ** The contract layer: how the envelopes relate *)

(** Splits a conformance hypothesis into the facts about each member. *)
Ltac by_members :=
  repeat match goal with
  | H : context [lookup ?p ?k] |- _ =>
      destruct (lookup p k) as [ [ ] | ]; cbn in H |- *; try discriminate H
  | |- context [lookup ?p ?k] =>
      destruct (lookup p k) as [ [ ] | ]; cbn
  | H : (_ && _)%bool = true |- _ => apply andb_prop in H; destruct H
  end.

(** X14.  Every instance of [ErrorResponse] has a string [error], a
    string [message] and a numeric [status] to read. *)
Theorem error_response_members :
  forall v : JsValue,
    conforms v ErrorResponse = true ->
    exists (err msg : string) (st : number),
      get_property v "error" = JString err
      /\ get_property v "message" = JString msg
      /\ get_property v "status" = JNumber st.
Proof.
  intros v H.
  destruct (@required_string_member v (members ErrorResponse) "error"
              (or_introl eq_refl) H) as [err He].
  destruct (@required_string_member v (members ErrorResponse) "message"
              (or_intror (or_introl eq_refl)) H) as [msg Hm].
  destruct (conforms_object _ _ H) as [props ->].
  destruct (@conforms_required props (members ErrorResponse) "status" TNumber
              (or_intror (or_intror (or_introl eq_refl))) H)
    as [pv [L Hpv]].
  destruct pv; try discriminate Hpv.
  exists err, msg, n. repeat split; try assumption.
  cbn. rewrite L. reflexivity.
Qed.

(** X15.  An instance of [ErrorResponse] is an instance of
    [FailResponse<any>], and of [FailResponse<T>] for every [T] when it
    has no [data]. *)
Theorem error_response_is_fail_response :
  forall (T : TsType) (v : JsValue),
    conforms v ErrorResponse = true ->
    T = TAny \/ get_property v "data" = JUndefined ->
    conforms v (FailResponse T) = true.
Proof.
  intros T v H HT. destruct v; try discriminate H.
  cbn in H, HT |- *. destruct HT as [-> | HT].
  - by_members; reflexivity.
  - by_members; first [ reflexivity | discriminate HT ].
Qed.

(** X16.  An instance of [SuccessResponse<T>] that has no [error] is an
    instance of [FailResponse<T>]. *)
Theorem success_response_is_fail_response :
  forall (T : TsType) (v : JsValue),
    conforms v (SuccessResponse T) = true ->
    get_property v "error" = JUndefined ->
    conforms v (FailResponse T) = true.
Proof.
  intros T v H HE.
  destruct (conforms_object _ _ H) as [props ->].
  cbn in H, HE |- *.
  destruct (lookup props "data") as [d | ]; [ | discriminate H ].
  apply andb_prop in H. destruct H as [Hd H].
  assert (D : match d with
              | JUndefined => true
              | _ => conforms d T
              end = true) by (destruct d; first [ reflexivity | exact Hd ]).
  clear Hd.
  destruct (lookup props "status") as [ [ ] | ]; cbn in H |- *;
    try discriminate H;
    destruct (lookup props "error") as [ [ ] | ]; cbn in HE |- *;
      try discriminate HE;
      destruct (lookup props "message") as [ [ ] | ]; cbn in H |- *;
        try discriminate H;
        destruct d; cbn in D |- *;
          first [ reflexivity | rewrite D; reflexivity ].
Qed.

(** ** The further properties at work on sample inputs *)

Local Abbreviation sample_api := (authApi TAny TAny TAny).
Local Abbreviation sample_invoke := (invoke TAny TAny TAny).

(** Two password resets, one with an email and one without, go to the
    same path. *)
Lemma path_determines_operation_witness :
  let i := CallResetPassword sample_email in
  let j := CallResetPassword (JObject []) in
  let ci := get (SuccessResponse SentEmailResponse) API_RESET_PASS_URL
              (JObject [ ("params", sample_email) ]) in
  let cj := get (SuccessResponse SentEmailResponse) API_RESET_PASS_URL
              (JObject [ ("params", JObject []) ]) in
  In ci (requests (run by_path (sample_invoke i) []))
  /\ In cj (requests (run by_path (sample_invoke j) [ "/auth/login" ]))
  /\ call_url ci = call_url cj
  /\ operation i = operation j.
Proof.
  cbv zeta.
  split; [ left; reflexivity | ].
  split; [ left; reflexivity | ].
  split; [ reflexivity | ].
  apply (@path_determines_operation TAny TAny TAny (list string) by_path
           (CallResetPassword sample_email) (CallResetPassword (JObject []))
           [] [ "/auth/login" ]
           (get (SuccessResponse SentEmailResponse) API_RESET_PASS_URL
              (JObject [ ("params", sample_email) ]))
           (get (SuccessResponse SentEmailResponse) API_RESET_PASS_URL
              (JObject [ ("params", JObject []) ]))).
  - left. reflexivity.
  - left. reflexivity.
  - reflexivity.
Defined.

(** The same login, before and after a logout. *)
Lemma invocations_distinct_on_the_wire_witness :
  let i := CallLogin sample_credentials in
  requests (run by_path (sample_invoke i) [])
  = requests (run by_path (sample_invoke i) [ "/auth/logout" ])
  /\ i = i.
Proof.
  cbv zeta. split; [ reflexivity | ].
  apply (@invocations_distinct_on_the_wire TAny TAny TAny (list string)
           by_path (CallLogin sample_credentials)
           (CallLogin sample_credentials) [] [ "/auth/logout" ]).
  reflexivity.
Defined.

(** The email-verification request that the transport never settles. *)
Lemma operation_hands_back_transport_promise_witness :
  let r := run by_path (sample_invoke (CallSentEmailAuth sample_email)) [] in
  let q := get (SuccessResponse SentEmailResponse) API_SENT_EMAIL_URL
             (JObject [ ("params", sample_email) ]) in
  In (q, Pending) (exchanges r)
  /\ returned r = Pending
  /\ exchanges r = [ (q, Pending) ].
Proof.
  cbv zeta. split; [ left; reflexivity | ].
  apply (@operation_hands_back_transport_promise TAny TAny TAny (list string)
           by_path (CallSentEmailAuth sample_email) []
           (get (SuccessResponse SentEmailResponse) API_SENT_EMAIL_URL
              (JObject [ ("params", sample_email) ]))
           Pending).
  left. reflexivity.
Defined.

Lemma sentEmailAuth_typed_argument_sends_email_witness :
  conforms sample_email (param (sentEmailAuth sample_api)) = true
  /\ exists (q : AxiosCall) (e : string),
       requests (run by_path (sentEmailAuth sample_api sample_email) []) = [q]
       /\ call_method q = GET
       /\ call_url q = API_SENT_EMAIL_URL
       /\ query_param q "email" = JString e.
Proof.
  split; [ reflexivity | ].
  apply (@sentEmailAuth_typed_argument_sends_email TAny TAny TAny
           (list string) by_path sample_email []).
  reflexivity.
Defined.

Lemma loginWithGG_typed_argument_sends_code_witness :
  conforms sample_code (param (loginWithGG sample_api)) = true
  /\ exists (q : AxiosCall) (c : string),
       requests (run by_path (loginWithGG sample_api sample_code) []) = [q]
       /\ call_method q = GET
       /\ call_url q = API_LOGIN_GOOGLE
       /\ query_param q "code" = JString c.
Proof.
  split; [ reflexivity | ].
  apply (@loginWithGG_typed_argument_sends_code TAny TAny TAny
           (list string) by_path sample_code []).
  reflexivity.
Defined.

Lemma resetPassword_typed_argument_sends_string_or_nothing_witness :
  conforms (JObject []) (param (resetPassword sample_api)) = true
  /\ exists q : AxiosCall,
       requests (run by_path (resetPassword sample_api (JObject [])) []) = [q]
       /\ call_method q = GET
       /\ call_url q = API_RESET_PASS_URL
       /\ (query_param q "email" = JUndefined
           \/ exists e : string, query_param q "email" = JString e).
Proof.
  split; [ reflexivity | ].
  apply (@resetPassword_typed_argument_sends_string_or_nothing
           TAny TAny TAny (list string) by_path (JObject []) []).
  reflexivity.
Defined.

(** The transport fulfils [login] with the two tokens. *)
Lemma login_success_carries_tokens_witness :
  let i := CallLogin sample_credentials in
  let r := run by_path (sample_invoke i) [] in
  let q := post (SuccessResponse (LoginResponse TAny)) API_LOGIN_URL
             sample_credentials in
  (operation i = Login \/ operation i = LoginWithGG)
  /\ In (q, Fulfilled tokens_t1_t2) (exchanges r)
  /\ conforms tokens_t1_t2 (call_type q) = true
  /\ returned r = Fulfilled tokens_t1_t2
  /\ exists access refresh : string,
       get_property (get_property tokens_t1_t2 "data") "access_token"
       = JString access
       /\ get_property (get_property tokens_t1_t2 "data") "refresh_token"
          = JString refresh.
Proof.
  cbv zeta.
  split; [ left; reflexivity | ].
  split; [ left; reflexivity | ].
  split; [ reflexivity | ].
  apply (@login_success_carries_tokens TAny TAny TAny (list string) by_path
           (CallLogin sample_credentials) []
           (post (SuccessResponse (LoginResponse TAny)) API_LOGIN_URL
              sample_credentials)
           tokens_t1_t2).
  - left. reflexivity.
  - left. reflexivity.
  - reflexivity.
Defined.

(** The transport fulfils [logout] with [{data: null, message: "Bye"}]. *)
Lemma logout_success_carries_null_witness :
  let r := run by_path (logout sample_api tt) [] in
  let q := post (SuccessResponse TNull) API_LOGOUT_URL JUndefined in
  In (q, Fulfilled sample_goodbye) (exchanges r)
  /\ conforms sample_goodbye (call_type q) = true
  /\ returned r = Fulfilled sample_goodbye
  /\ get_property sample_goodbye "data" = JNull.
Proof.
  cbv zeta.
  split; [ left; reflexivity | ].
  split; [ reflexivity | ].
  apply (@logout_success_carries_null TAny TAny TAny (list string) by_path
           [] (post (SuccessResponse TNull) API_LOGOUT_URL JUndefined)
           sample_goodbye).
  - left. reflexivity.
  - reflexivity.
Defined.

Lemma error_response_members_witness :
  conforms sample_error ErrorResponse = true
  /\ exists (err msg : string) (st : number),
       get_property sample_error "error" = JString err
       /\ get_property sample_error "message" = JString msg
       /\ get_property sample_error "status" = JNumber st.
Proof.
  split; [ reflexivity | ].
  apply (error_response_members sample_error). reflexivity.
Defined.

Lemma error_response_is_fail_response_witness :
  conforms sample_error ErrorResponse = true
  /\ (SentEmailResponse = TAny
      \/ get_property sample_error "data" = JUndefined)
  /\ conforms sample_error (FailResponse SentEmailResponse) = true.
Proof.
  split; [ reflexivity | ].
  split; [ right; reflexivity | ].
  apply (@error_response_is_fail_response SentEmailResponse sample_error).
  - reflexivity.
  - right. reflexivity.
Defined.

Lemma success_response_is_fail_response_witness :
  conforms tokens_t1_t2 (SuccessResponse (LoginResponse TAny)) = true
  /\ get_property tokens_t1_t2 "error" = JUndefined
  /\ conforms tokens_t1_t2 (FailResponse (LoginResponse TAny)) = true.
Proof.
  split; [ reflexivity | ].
  split; [ reflexivity | ].
  apply (@success_response_is_fail_response (LoginResponse TAny)
           tokens_t1_t2).
  - reflexivity.
  - reflexivity.
Defined.

(** The transport fulfils [register] with a new, unconfirmed account. *)
Lemma register_success_members_witness :
  let r := run (always (Fulfilled sample_registered))
               (register sample_api sample_credentials) 0 in
  let q := post (SuccessResponse RegisterReponse) API_REGISTER_URL
             sample_credentials in
  In (q, Fulfilled sample_registered) (exchanges r)
  /\ conforms sample_registered (call_type q) = true
  /\ returned r = Fulfilled sample_registered
  /\ (get_property (get_property sample_registered "data") "id" = JUndefined
      \/ exists n : number,
           get_property (get_property sample_registered "data") "id"
           = JNumber n)
  /\ (get_property (get_property sample_registered "data")
        "is_email_confirmed" = JUndefined
      \/ exists b : bool,
           get_property (get_property sample_registered "data")
             "is_email_confirmed" = JBoolean b).
Proof.
  cbv zeta.
  split; [ left; reflexivity | ].
  split; [ reflexivity | ].
  apply (@register_success_members TAny TAny TAny nat
           (always (Fulfilled sample_registered)) sample_credentials 0
           (post (SuccessResponse RegisterReponse) API_REGISTER_URL
              sample_credentials)
           sample_registered).
  - left. reflexivity.
  - reflexivity.
Defined.

(** The transport fulfils [resetPassword] with a response that has no
    token. *)
Lemma email_success_members_witness :
  let i := CallResetPassword sample_email in
  let r := run (always (Fulfilled sample_sent)) (sample_invoke i) 0 in
  let q := get (SuccessResponse SentEmailResponse) API_RESET_PASS_URL
             (JObject [ ("params", sample_email) ]) in
  (operation i = ResetPassword \/ operation i = SentEmailAuth)
  /\ In (q, Fulfilled sample_sent) (exchanges r)
  /\ conforms sample_sent (call_type q) = true
  /\ In "token" [ "email"; "message"; "token" ]
  /\ call_type q = SuccessResponse SentEmailResponse
  /\ returned r = Fulfilled sample_sent
  /\ (get_property (get_property sample_sent "data") "token" = JUndefined
      \/ exists s : string,
           get_property (get_property sample_sent "data") "token"
           = JString s).
Proof.
  cbv zeta.
  split; [ left; reflexivity | ].
  split; [ left; reflexivity | ].
  split; [ reflexivity | ].
  split; [ right; right; left; reflexivity | ].
  apply (@email_success_members TAny TAny TAny nat
           (always (Fulfilled sample_sent))
           (CallResetPassword sample_email) 0
           (get (SuccessResponse SentEmailResponse) API_RESET_PASS_URL
              (JObject [ ("params", sample_email) ]))
           sample_sent "token").
  - left. reflexivity.
  - left. reflexivity.
  - reflexivity.
  - right. right. left. reflexivity.
Defined.
